(** * fx-alert-bot: push registration page script and service worker

    A shallow embedding of the three source files of the repository:

    - [docs/sw.js], the service worker (module [SW]);
    - the page script that initialises the SDK inside [registerPush]
      and waits for [navigator.serviceWorker.ready] (module [PageScript]);
    - the page script that initialises the SDK when the script is loaded
      and registers the worker itself (module [LoaderScript]).

    The browser and the Firebase SDK are the environment.  Every call the
    scripts make into them is answered by an oracle ([Env]), the effects
    the scripts have on the page, on the remote store and on the SDK's
    application registry are threaded through a [World], and every call is
    recorded in order in a list of [Event]s. *)

From Stdlib Require Import ZArith Lia List.
From stdpp Require Import base option list strings gmap fin_maps.

Import ListNotations.
Local Open Scope Z_scope.

(** ** JavaScript values the scripts look at *)

Module Js.

(** A string is the sequence of its code units; the tokens and keys the
    scripts slice are ASCII. *)

(** [String.prototype.slice]: a negative index counts from the end, and
    both indices are clamped to the string. *)
Definition clamp_index (len k : Z) : Z :=
  if k <? 0 then Z.max (len + k) 0 else Z.min k len.

Definition slice (s : string) (start : Z) (stop : option Z) : string :=
  let len := Z.of_nat (String.length s) in
  let from := clamp_index len start in
  let to := match stop with
            | Some e => clamp_index len e
            | None => len
            end in
  String.substring (Z.to_nat from) (Z.to_nat (Z.max (to - from) 0)) s.

(** A token as [getToken] resolves it: a string, or [null]/[undefined]. *)
Definition truthy (v : option string) : bool :=
  match v with
  | Some (String _ _) => true
  | Some EmptyString => false
  | None => false
  end.

(** What the specification calls the first and the last [n] characters. *)
Definition first_chars (n : nat) (s : string) : string :=
  String.string_of_list_ascii (take n (String.list_ascii_of_string s)).

Definition last_chars (n : nat) (s : string) : string :=
  let l := String.list_ascii_of_string s in
  String.string_of_list_ascii (drop (length l - n) l).

End Js.

(** ** The page, the remote store and the SDK *)

(** Everything the browser and the SDK throw or reject with is an [Error]
    object; the scripts read its [message]. *)
Record Error := mkError { message : string }.

(** A promise the scripts await, once it has settled. *)
Inductive Settled (A : Type) :=
| Fulfilled (a : A)
| Rejected (e : Error).
Arguments Fulfilled {A} a.
Arguments Rejected {A} e.

(** [Notification.requestPermission()] resolves to one of the three strings
    "granted", "denied" and "default"; the scripts compare it with "granted". *)
Inductive Permission := Granted | Denied | Default.

Record Registration := mkRegistration { scriptURL : string }.

(** The one listener the scripts add to the button: [registerPush]. *)
Inductive Listener := ClickRegisterPush.

#[export] Instance Listener_eq_dec : EqDecision Listener.
Proof. solve_decision. Defined.

Record StatusEl := mkStatusEl { textContent : string; color : string }.

(** The three elements the scripts look up by id; [getElementById] gives
    [null] for one that is missing. *)
Record Dom := mkDom {
  status : option StatusEl;        (* #status *)
  tokenPreview : option string;    (* #tokenPreview, its textContent *)
  btn : option (list Listener)     (* #btn, its click listeners *)
}.

(** The collection [subscribers]: document id to fields. *)
Module Firestore.

(** [doc(key).set(data, { merge: true })]: the fields of [data] replace
    those of the same name, every other field of the document stays. *)
Definition set_merge (key : string) (data : gmap string string)
    (coll : gmap string (gmap string string)) : gmap string (gmap string string) :=
  <[key := data ∪ default ∅ (coll !! key)]> coll.

End Firestore.

Record World := mkWorld {
  page : Dom;
  subscribers : gmap string (gmap string string);
  apps : bool                      (* the SDK's default app exists *)
}.

(** What the browser and the SDK answer during one run. *)
Record Env := mkEnv {
  firebase_loaded : bool;                       (* window.firebase *)
  initialize_again : option Error;              (* a repeated initializeApp throws *)
  messaging : option Error;                     (* firebase.messaging() throws *)
  firestore : option Error;                     (* firebase.firestore() throws *)
  sw_supported : bool;                          (* "serviceWorker" in navigator *)
  sw_ready : Settled Registration;              (* navigator.serviceWorker.ready *)
  sw_register : string → Settled Registration;  (* navigator.serviceWorker.register *)
  permission : Settled Permission;              (* Notification.requestPermission() *)
  get_token : Settled (option string);          (* messaging.getToken(...) *)
  store_set : option Error;                     (* doc(...).set(...) rejects *)
  userAgent : string;                           (* navigator.userAgent *)
  now : string                                  (* new Date().toISOString() *)
}.

Inductive Event :=
| CallSetStatus (msg : string) (ok : bool)
| CallInitializeApp
| AwaitReady
| CallRegister (script : string)
| CallRequestPermission
| CallGetToken (vapidKey : string) (reg : Registration)
| ConsoleLog (token : string)
| ConsoleError (e : Error)
| WritePreview (text : string)
| CallStoreSet (key : string) (data : gmap string string)
| StoreSetResolved (key : string).

(** ** Computations: state, exceptions and the list of calls made *)

Inductive Completion (A : Type) :=
| Normal (a : A)
| Throw (e : Error).
Arguments Normal {A} a.
Arguments Throw {A} e.

Record Res (A : Type) := mkRes {
  outcome : Completion A;
  world : World;
  events : list Event
}.
Arguments mkRes {A}.
Arguments outcome {A}.
Arguments world {A}.
Arguments events {A}.

Definition M (A : Type) : Type := World → Res A.

#[export] Instance M_ret : MRet M := λ A a w, mkRes (Normal a) w [].

#[export] Instance M_bind : MBind M := λ A B f m w,
  match m w with
  | mkRes (Normal a) w1 evs1 =>
      match f a w1 with
      | mkRes o w2 evs2 => mkRes o w2 (evs1 ++ evs2)
      end
  | mkRes (Throw e) w1 evs1 => mkRes (Throw e) w1 evs1
  end.

Definition throw {A} (e : Error) : M A := λ w, mkRes (Throw e) w [].

(** [try { m } catch (e) { h e }] *)
Definition try_catch {A} (m : M A) (h : Error → M A) : M A := λ w,
  match m w with
  | mkRes (Normal a) w1 evs1 => mkRes (Normal a) w1 evs1
  | mkRes (Throw e) w1 evs1 =>
      match h e w1 with
      | mkRes o w2 evs2 => mkRes o w2 (evs1 ++ evs2)
      end
  end.

Definition emit (ev : Event) : M unit := λ w, mkRes (Normal tt) w [ev].

Definition get_dom : M Dom := λ w, mkRes (Normal (page w)) w [].

Definition put_dom (d : Dom) : M unit := λ w,
  mkRes (Normal tt) (mkWorld d (subscribers w) (apps w)) [].

(** [await p]: the call is recorded, then the promise's result is taken. *)
Definition await {A} (ev : Event) (p : Settled A) : M A :=
  emit ev;;
  match p with
  | Fulfilled a => mret a
  | Rejected e => throw e
  end.

(** A synchronous SDK call that either returns or throws. *)
Definition sdk_call (r : option Error) : M unit :=
  match r with
  | None => mret tt
  | Some e => throw e
  end.

(** The error with which version 8 of the SDK refuses a second
    initialisation of the default app. *)
Definition duplicate_app : Error :=
  mkError "Firebase: Firebase App named '[DEFAULT]' already exists (app/duplicate-app).".

(** The Firebase SDK is not part of the repository, and the scripts do not
    say which version the page loads.  The first [initializeApp] creates the
    default app.  What a repeated call with the same configuration does is
    the SDK's choice, so the environment answers it: the compat builds of
    version 9 and later return the existing app, version 8 throws
    [app/duplicate-app]. *)
Definition create_default_app (env : Env) : M unit := λ w,
  if apps w
  then match initialize_again env with
       | Some e => mkRes (Throw e) w []
       | None => mkRes (Normal tt) w []
       end
  else mkRes (Normal tt) (mkWorld (page w) (subscribers w) true) [].

(** [firebase.initializeApp(firebaseConfig)] *)
Definition initializeApp (env : Env) : M unit :=
  emit CallInitializeApp;; create_default_app env.

Definition modify_subscribers
    (f : gmap string (gmap string string) → gmap string (gmap string string)) : M unit :=
  λ w, mkRes (Normal tt) (mkWorld (page w) (f (subscribers w)) (apps w)) [].

(** [await db.collection("subscribers").doc(key).set(data, { merge: true })]:
    a rejected write leaves the collection as it was. *)
Definition store_set_merge (env : Env) (key : string) (data : gmap string string) : M unit :=
  emit (CallStoreSet key data);;
  match store_set env with
  | Some e => throw e
  | None =>
      modify_subscribers (Firestore.set_merge key data);;
      emit (StoreSetResolved key)
  end.

(** The record both scripts write: [{ token, ua, createdAt }]. *)
Definition subscriber_record (env : Env) (token : string) : gmap string string :=
  {[ "token" := token; "ua" := userAgent env; "createdAt" := now env ]}.

Definition VAPID_KEY : string :=
  "BAeVrDv83RYpmoNSqlvUpgI9banBADRnOiu44Mqnq90Q4cr1O04t-ONRmDBtFsVorZe3a9CCLLaQi4UWAohIbLc".

(** ** Code shared by the two page scripts *)

(** [function setStatus(msg, ok = true)] *)
Definition setStatus (msg : string) (ok : bool) : M unit :=
  emit (CallSetStatus msg ok);;
  d ← get_dom;
  match status d with
  | None => mret tt
  | Some _ =>
      put_dom (mkDom (Some (mkStatusEl ("상태: " +:+ msg)
                                        (if ok then "#7CFF7C" else "#FF7C7C")))
                     (tokenPreview d) (btn d))
  end.

(** [token.slice(0, 12) + "..." + token.slice(-8)] *)
Definition preview_text (token : string) : string :=
  Js.slice token 0 (Some 12) +:+ "..." +:+ Js.slice token (-8) None.

(** Assignment to [textContent] of [#tokenPreview], when the element exists. *)
Definition write_preview (text : string) : M unit :=
  d ← get_dom;
  match tokenPreview d with
  | None => mret tt
  | Some _ =>
      emit (WritePreview text);;
      put_dom (mkDom (status d) (Some text) (btn d))
  end.

(** [btn.addEventListener("click", registerPush)]: the browser keeps one
    entry per listener function. *)
Definition add_listener (l : Listener) (ls : list Listener) : list Listener :=
  if decide (l ∈ ls) then ls else ls ++ [l].

(** The [DOMContentLoaded] listener. *)
Definition wire_button : M unit :=
  d ← get_dom;
  match btn d with
  | None => mret tt
  | Some ls => put_dom (mkDom (status d) (tokenPreview d)
                              (Some (add_listener ClickRegisterPush ls)))
  end.

(** [catch (e) { console.error(e); setStatus("오류: " + e.message, false); }] *)
Definition catch_handler (e : Error) : M unit :=
  emit (ConsoleError e);;
  setStatus ("오류: " +:+ message e) false.

(** ** The page script that initialises the SDK on every click *)

Module PageScript.

(** [function setTokenPreview(token)] *)
Definition setTokenPreview (token : option string) : M unit :=
  write_preview (if Js.truthy token then preview_text (default EmptyString token) else "-").

(** The [try] block of [registerPush]; a [return] ends the block. *)
Definition body (env : Env) : M unit :=
  setStatus "초기화 중..." true;;
  (if firebase_loaded env then mret tt
   else throw (mkError "firebase SDK not loaded"));;
  initializeApp env;;
  sdk_call (messaging env);;
  sdk_call (firestore env);;
  (if sw_supported env then mret tt
   else throw (mkError "ServiceWorker not supported"));;
  setStatus "Service Worker 준비 대기..." true;;
  reg ← await AwaitReady (sw_ready env);
  setStatus "알림 권한 요청 중..." true;;
  perm ← await CallRequestPermission (permission env);
  match perm with
  | Granted =>
      setStatus "푸시 토큰 발급 중..." true;;
      token ← await (CallGetToken VAPID_KEY reg) (get_token env);
      if Js.truthy token then
        let t := default EmptyString token in
        emit (ConsoleLog t);;
        setTokenPreview token;;
        setStatus "Firestore에 저장 중..." true;;
        store_set_merge env t (subscriber_record env t);;
        setStatus "등록 완료 ✅ 이제 푸시를 받을 수 있습니다!" true
      else throw (mkError "token is empty")
  | _ => setStatus "알림 권한이 거부되었습니다" false
  end.

Definition registerPush (env : Env) : M unit :=
  try_catch (body env) catch_handler.

(** Loading the script only installs the [DOMContentLoaded] listener. *)
Definition load (env : Env) : M unit := wire_button.

End PageScript.

(** ** The page script that initialises the SDK when it is loaded *)

Module LoaderScript.

(** [async function registerServiceWorker()] *)
Definition registerServiceWorker (env : Env) : M Registration :=
  if sw_supported env
  then await (CallRegister "./app.js") (sw_register env "./app.js")
  else throw (mkError "Service Worker not supported").

Definition body (env : Env) : M unit :=
  setStatus "Service Worker 등록 중..." true;;
  reg ← registerServiceWorker env;
  setStatus "알림 권한 요청 중..." true;;
  perm ← await CallRequestPermission (permission env);
  match perm with
  | Granted =>
      setStatus "푸시 토큰 발급 중..." true;;
      token ← await (CallGetToken VAPID_KEY reg) (get_token env);
      if Js.truthy token then
        let t := default EmptyString token in
        emit (ConsoleLog t);;
        setStatus "Firestore에 토큰 저장 중..." true;;
        store_set_merge env t (subscriber_record env t);;
        setStatus "등록 완료 ✅ 이제 푸시를 받을 수 있습니다!" true;;
        write_preview (preview_text t)
      else setStatus "토큰 발급 실패" false
  | _ => setStatus "알림 권한이 거부되었습니다" false
  end.

Definition registerPush (env : Env) : M unit :=
  try_catch (body env) catch_handler.

(** The top level of the script: the SDK is initialised once, then the
    [DOMContentLoaded] listener is installed.  An exception aborts the
    script before the listener exists. *)
Definition load (env : Env) : M unit :=
  (if firebase_loaded env then mret tt
   else throw (mkError "firebase is not defined"));;
  initializeApp env;;
  sdk_call (messaging env);;
  sdk_call (firestore env);;
  wire_button.

End LoaderScript.

(** A click on [#btn] runs the listeners the button has. *)
Definition click (registerPush : Env → M unit) (env : Env) : M unit :=
  d ← get_dom;
  match btn d with
  | Some (ClickRegisterPush :: _) => registerPush env
  | _ => mret tt
  end.

(** ** The service worker *)

Module SW.
Section Worker.

Variables Request Response : Type.

(** [fetch(request)] at the moment the worker performs it: the promise
    it returns is fulfilled with a response or rejected. *)
Variable network : Request → Settled Response.

Inductive SwEvent :=
| Install
| Activate
| Fetch (request : Request).

Inductive SwCall :=
| SkipWaiting
| WaitUntilClientsClaim
| NetworkFetch (request : Request)
| RespondWith (p : Settled Response).

(** The three listeners of [sw.js]. *)
Definition dispatch (ev : SwEvent) : list SwCall :=
  match ev with
  | Install => [SkipWaiting]
  | Activate => [WaitUntilClientsClaim]
  | Fetch request => [NetworkFetch request; RespondWith (network request)]
  end.

(** What the page receives: the promise given to the first [respondWith]. *)
Fixpoint response_of (calls : list SwCall) : option (Settled Response) :=
  match calls with
  | [] => None
  | RespondWith p :: _ => Some p
  | _ :: rest => response_of rest
  end.

Fixpoint network_requests (calls : list SwCall) : list Request :=
  match calls with
  | [] => []
  | NetworkFetch r :: rest => r :: network_requests rest
  | _ :: rest => network_requests rest
  end.

End Worker.
End SW.

(** ** Concrete pages and environments *)

Definition sw_reg : Registration := mkRegistration "/fx-alert-bot/sw.js".

Definition sample_token : string := "abcdefghijklmnopqrstuvwx".

(** Every call succeeds and the user grants the permission. *)
Definition env_ok : Env :=
  mkEnv true None None None true (Fulfilled sw_reg) (λ _, Fulfilled sw_reg)
        (Fulfilled Granted) (Fulfilled (Some sample_token)) None
        "Mozilla/5.0" "2024-01-01T00:00:00.000Z".

(** An environment with one answer replaced. *)
Definition with_permission (p : Settled Permission) (env : Env) : Env :=
  mkEnv (firebase_loaded env) (initialize_again env) (messaging env) (firestore env) (sw_supported env)
        (sw_ready env) (sw_register env) p (get_token env) (store_set env)
        (userAgent env) (now env).

Definition with_token (t : Settled (option string)) (env : Env) : Env :=
  mkEnv (firebase_loaded env) (initialize_again env) (messaging env) (firestore env) (sw_supported env)
        (sw_ready env) (sw_register env) (permission env) t (store_set env)
        (userAgent env) (now env).

Definition with_store_error (e : Error) (env : Env) : Env :=
  mkEnv (firebase_loaded env) (initialize_again env) (messaging env) (firestore env) (sw_supported env)
        (sw_ready env) (sw_register env) (permission env) (get_token env) (Some e)
        (userAgent env) (now env).

Definition with_now (t : string) (env : Env) : Env :=
  mkEnv (firebase_loaded env) (initialize_again env) (messaging env) (firestore env) (sw_supported env)
        (sw_ready env) (sw_register env) (permission env) (get_token env) (store_set env)
        (userAgent env) t.

(** A page with the three elements, and a page with none of them. *)
Definition page_full : Dom := mkDom (Some (mkStatusEl EmptyString EmptyString)) (Some "-") (Some []).

Definition page_bare : Dom := mkDom None None None.

Definition fresh_world (d : Dom) : World := mkWorld d ∅ false.

(** [window.firebase] is missing. *)
Definition env_no_sdk : Env :=
  mkEnv false None None None true (Fulfilled sw_reg) (λ _, Fulfilled sw_reg)
        (Fulfilled Granted) (Fulfilled (Some sample_token)) None
        "Mozilla/5.0" "2024-01-01T00:00:00.000Z".

Definition store_down : Error :=
  mkError "Failed to get document because the client is offline.".

(** The page after the script was loaded and the button clicked once, every
    call succeeding. *)
Definition after_first_click : World :=
  world (click PageScript.registerPush env_ok
           (world (PageScript.load env_ok (fresh_world page_full)))).

(** The environment of [env_ok] with an SDK that throws [e] when the
    default app is initialised again. *)
Definition with_initialize_again (e : Error) (env : Env) : Env :=
  mkEnv (firebase_loaded env) (Some e) (messaging env) (firestore env) (sw_supported env)
        (sw_ready env) (sw_register env) (permission env) (get_token env) (store_set env)
        (userAgent env) (now env).

(** ** Vocabulary of the properties *)

Section Judgements.

Context {A : Type}.

(** [m] returns normally from every state. *)
Definition never_throws (m : M A) : Prop :=
  ∀ w, ∃ a, outcome (m w) = Normal a.

(** [P] is an invariant of [m], however [m] ends. *)
Definition keeps (P : World → Prop) (m : M A) : Prop :=
  ∀ w, P w → P (world (m w)).

(** Every call [m] makes satisfies [Q]. *)
Definition emits_only (Q : Event → Prop) (m : M A) : Prop :=
  ∀ w, Forall Q (events (m w)).

End Judgements.

(** The page has a status element. *)
Definition has_status (w : World) : Prop := is_Some (status (page w)).

(** What the [catch] block leaves behind for the error [e]: the last two
    calls of the run are [console.error(e)] and the failure status, and a
    status element that was on the page shows that status in red. *)
Definition reports_failure (e : Error) (before : World) (r : Res unit) : Prop :=
  (∃ evs, events r =
          evs ++ [ConsoleError e; CallSetStatus ("오류: " +:+ message e) false]) ∧
  (has_status before →
   status (page (world r)) =
   Some (mkStatusEl ("상태: " +:+ "오류: " +:+ message e) "#FF7C7C")).

(** Calls to look for in the list of events of a run. *)
Definition is_get_token (ev : Event) : bool :=
  match ev with CallGetToken _ _ => true | _ => false end.

Definition is_store_set (ev : Event) : bool :=
  match ev with CallStoreSet _ _ => true | _ => false end.

Definition is_prompt (ev : Event) : bool :=
  match ev with CallRequestPermission => true | _ => false end.

Definition denied_status : Event := CallSetStatus "알림 권한이 거부되었습니다" false.

(** The steps before the permission prompt go through.  In the script that
    initialises the SDK inside [registerPush]: the SDK is there, the default
    app can be initialised (it does not exist yet, or the SDK accepts the
    repeated call) and the two services load. *)
Definition sdk_ready (env : Env) (w : World) : Prop :=
  firebase_loaded env = true ∧
  (apps w = false ∨ initialize_again env = None) ∧
  messaging env = None ∧ firestore env = None.

(** Service workers are supported and the registration [reg] arrives. *)
Definition worker_ready (reg : Settled Registration) (env : Env) : Prop :=
  sw_supported env = true ∧ ∃ r, reg = Fulfilled r.

(** The run asked for the permission and its last call sets the denied
    status, which a status element of the page then shows in red. *)
Definition ends_denied (before : World) (r : Res unit) : Prop :=
  existsb is_prompt (events r) = true ∧
  last (events r) = Some denied_status ∧
  (has_status before →
   status (page (world r)) =
   Some (mkStatusEl ("상태: " +:+ "알림 권한이 거부되었습니다") "#FF7C7C")).

(** The run asked for a token and its last call sets the failure status
    [msg], which a status element of the page then shows in red. *)
Definition ends_failed (msg : string) (before : World) (r : Res unit) : Prop :=
  existsb is_get_token (events r) = true ∧
  last (events r) = Some (CallSetStatus msg false) ∧
  (has_status before →
   status (page (world r)) = Some (mkStatusEl ("상태: " +:+ msg) "#FF7C7C")).

(** A run that ends at the permission prompt. *)
Definition stops_at_denied (before : World) (r : Res unit) : Prop :=
  outcome r = Normal tt ∧
  existsb is_get_token (events r) = false ∧
  existsb is_store_set (events r) = false ∧
  subscribers (world r) = subscribers before ∧
  (existsb is_prompt (events r) = true →
   last (events r) = Some denied_status ∧
   (has_status before →
    status (page (world r)) =
    Some (mkStatusEl ("상태: " +:+ "알림 권한이 거부되었습니다") "#FF7C7C"))).

(** A run that reports [msg] as a failure and leaves the store alone. *)
Definition fails_without_write (msg : string) (before : World) (r : Res unit) : Prop :=
  outcome r = Normal tt ∧
  existsb is_store_set (events r) = false ∧
  subscribers (world r) = subscribers before ∧
  (existsb is_get_token (events r) = true →
   last (events r) = Some (CallSetStatus msg false) ∧
   (has_status before →
    status (page (world r)) = Some (mkStatusEl ("상태: " +:+ msg) "#FF7C7C"))).

(** [preview_after mark seen evs]: every write to the preview element in
    [evs] comes after an event that [mark] selects ([seen] tells whether
    one came before [evs]). *)
Fixpoint preview_after (mark : Event → bool) (seen : bool) (evs : list Event) : bool :=
  match evs with
  | [] => true
  | WritePreview _ :: rest => seen && preview_after mark seen rest
  | ev :: rest => preview_after mark (seen || mark ev) rest
  end.

(** [each_after mark target seen evs]: every call of [evs] that [target]
    selects comes after a call that [mark] selects. *)
Fixpoint each_after (mark target : Event → bool) (seen : bool) (evs : list Event) : bool :=
  match evs with
  | [] => true
  | ev :: rest =>
      (if target ev then seen else true) && each_after mark target (seen || mark ev) rest
  end.

Definition is_preview_write (ev : Event) : bool :=
  match ev with WritePreview _ => true | _ => false end.

Definition is_persisted (ev : Event) : bool :=
  match ev with StoreSetResolved _ => true | _ => false end.

(** [console.log("FCM TOKEN:", token)] is reached with a non-empty token only. *)
Definition is_token_logged (ev : Event) : bool :=
  match ev with ConsoleLog (String _ _) => true | _ => false end.

(** The persistence step of both scripts, on the collection alone. *)
Definition persist (env : Env) (token : string)
    (coll : gmap string (gmap string string)) : gmap string (gmap string string) :=
  Firestore.set_merge token (subscriber_record env token) coll.

(** The page is [d]. *)
Definition page_is (d : Dom) (w : World) : Prop := page w = d.

(** Every document has a non-empty key and carries it in its [token] field. *)
Definition keyed_by_token (coll : gmap string (gmap string string)) : Prop :=
  ∀ key doc, coll !! key = Some doc → key ≠ EmptyString ∧ doc !! "token" = Some key.

Definition store_keyed (w : World) : Prop := keyed_by_token (subscribers w).

(** The same for a write the script asks for. *)
Definition write_keyed (ev : Event) : Prop :=
  match ev with
  | CallStoreSet key data => key ≠ EmptyString ∧ data !! "token" = Some key
  | _ => True
  end.

(** ** Vocabulary of the further properties *)

(** What [setStatus(msg, ok)] puts into a status element. *)
Definition status_shown (msg : string) (ok : bool) : StatusEl :=
  mkStatusEl ("상태: " +:+ msg) (if ok then "#7CFF7C" else "#FF7C7C").

(** The status element as the [setStatus] calls of [evs] leave it, starting
    from [shown]. *)
Fixpoint status_after (shown : option StatusEl) (evs : list Event) : option StatusEl :=
  match evs with
  | [] => shown
  | CallSetStatus msg ok :: rest => status_after (Some (status_shown msg ok)) rest
  | _ :: rest => status_after shown rest
  end.

(** The last call [setStatus] of the success message. *)
Definition is_success (ev : Event) : bool :=
  match ev with
  | CallSetStatus msg true =>
      String.eqb msg "등록 완료 ✅ 이제 푸시를 받을 수 있습니다!"
  | _ => false
  end.

Definition is_initializeApp (ev : Event) : bool :=
  match ev with CallInitializeApp => true | _ => false end.

Definition is_register (ev : Event) : bool :=
  match ev with CallRegister _ => true | _ => false end.

Definition count_calls (f : Event → bool) (evs : list Event) : nat :=
  length (List.filter f evs).

(** The calls that leave the page script: waiting for or registering the
    worker, the permission prompt, [getToken] and the store write. *)
Definition leaves_page (ev : Event) : bool :=
  match ev with
  | AwaitReady | CallRegister _ | CallRequestPermission
  | CallGetToken _ _ | CallStoreSet _ _ => true
  | _ => false
  end.

(** How far a run has got with the three external requests. *)
Inductive Stage := Started | Prompted | TokenAsked | WriteAsked.

(** The permission prompt, [getToken] and the store write occur in that
    order, each at most once, each only after the one before it. *)
Fixpoint calls_in_order (stage : Stage) (evs : list Event) : bool :=
  match evs with
  | [] => true
  | CallRequestPermission :: rest =>
      match stage with Started => calls_in_order Prompted rest | _ => false end
  | CallGetToken _ _ :: rest =>
      match stage with Prompted => calls_in_order TokenAsked rest | _ => false end
  | CallStoreSet _ _ :: rest =>
      match stage with TokenAsked => calls_in_order WriteAsked rest | _ => false end
  | _ :: rest => calls_in_order stage rest
  end.

(** A [getToken] call carries the public key and the registration [reg]. *)
Definition token_request_with (reg : Settled Registration) (ev : Event) : Prop :=
  match ev with
  | CallGetToken key r => key = VAPID_KEY ∧ reg = Fulfilled r
  | _ => True
  end.

(** A write to the preview element shows the preview of the non-empty token
    that [getToken] resolved to. *)
Definition preview_of_token (env : Env) (ev : Event) : Prop :=
  match ev with
  | WritePreview text =>
      ∃ t, get_token env = Fulfilled (Some t) ∧ t ≠ EmptyString ∧ text = preview_text t
  | _ => True
  end.

(** The page [d'] has the elements of [d], and the button its listeners. *)
Definition same_elements (d d' : Dom) : Prop :=
  (is_Some (status d') ↔ is_Some (status d)) ∧
  (is_Some (tokenPreview d') ↔ is_Some (tokenPreview d)) ∧
  btn d' = btn d.

Definition elements_of (d : Dom) (w : World) : Prop := same_elements d (page w).

(** Every answer a successful registration needs. *)
Definition all_succeed (reg : Settled Registration) (env : Env) (t : string) : Prop :=
  sw_supported env = true ∧ (∃ r, reg = Fulfilled r) ∧
  permission env = Fulfilled Granted ∧
  get_token env = Fulfilled (Some t) ∧ t ≠ EmptyString ∧
  store_set env = None.

(** The requests of the fetch events among [evs], in order. *)
Definition intercepted {Request : Type} (evs : list (SW.SwEvent Request)) : list Request :=
  flat_map (λ ev, match ev with SW.Fetch _ r => [r] | _ => [] end) evs.

(** The worker handling the events [evs] one after the other. *)
Definition dispatch_all {Request Response : Type}
    (network : Request → Settled Response)
    (evs : list (SW.SwEvent Request)) : list (SW.SwCall Request Response) :=
  flat_map (SW.dispatch Request Response network) evs.

Fixpoint responses_of {Request Response : Type}
    (calls : list (SW.SwCall Request Response)) : list (Settled Response) :=
  match calls with
  | [] => []
  | SW.RespondWith _ _ p :: rest => p :: responses_of rest
  | _ :: rest => responses_of rest
  end.

(** ** Proof tactics *)

Arguments subscriber_record : simpl never.
Arguments Firestore.set_merge : simpl never.
Arguments preview_text : simpl never.
Arguments String.append : simpl never.
Arguments VAPID_KEY : simpl never.
Arguments duplicate_app : simpl never.

Ltac unfold_prims :=
  unfold catch_handler, store_set_merge, initializeApp, create_default_app,
    modify_subscribers, setStatus, write_preview, wire_button, await, sdk_call,
    try_catch, emit, get_dom, put_dom, throw, mbind, mret, M_bind, M_ret in *.

Ltac unfold_scripts :=
  unfold PageScript.registerPush, PageScript.body, PageScript.setTokenPreview,
    PageScript.load, LoaderScript.registerPush, LoaderScript.body,
    LoaderScript.registerServiceWorker, LoaderScript.load, click in *.

(** Follow one run: whenever the computation waits for a value of the
    environment or of the page, split on it. *)
Ltac follow_run :=
  repeat (cbn;
          match goal with
          | |- context [Js.truthy ?t] => is_var t; destruct t as [[|? ?]|]
          | |- context [match ?x with _ => _ end] =>
              lazymatch x with
              | context [match _ with _ => _ end] => fail
              | _ => destruct x eqn:?
              end
          end);
  cbn.

Arguments stops_at_denied : simpl never.
Arguments fails_without_write : simpl never.
Arguments ends_denied : simpl never.
Arguments ends_failed : simpl never.

Create HintDb run discriminated.

(** Splits a sequence of steps into its steps, and a branch into its arms. *)
Ltac by_steps lem :=
  repeat first
    [ solve [eauto with run]
    | apply lem; [|intros ?]
    | match goal with
      | |- context [if ?b then _ else _] => destruct b eqn:?
      | |- context [match ?x with _ => _ end] => destruct x eqn:?
      end ].

(** Opens the hypotheses that say which steps of a run go through. *)
Ltac open_ready :=
  unfold sdk_ready, worker_ready; cbn; intros;
  repeat match goal with
         | H : _ ∧ _ |- _ => destruct H
         | H : _ ∨ _ |- _ => destruct H
         | H : ∃ _, _ |- _ => destruct H
         | H : is_Some _ |- _ => destruct H
         end;
  cbn in *; subst.

(** Checks a property of every call of an explicit list of calls. *)
Ltac check_calls :=
  repeat (constructor; [first [exact I | done | by eexists]|]); constructor.

(** * Properties *)

Example slice_head : Js.slice "abcdefghijklmnopqrstuvwx" 0 (Some 12) = "abcdefghijkl".
Proof. reflexivity. Qed.

Example slice_tail : Js.slice "abcdefghijklmnopqrstuvwx" (-8) None = "qrstuvwx".
Proof. reflexivity. Qed.

Example slice_short : Js.slice "abc" (-8) None = "abc".
Proof. reflexivity. Qed.

(** ** Reasoning about runs *)

Lemma bind_unfold {A B} (m : M A) (f : A → M B) w :
  (m ≫= f) w =
  match outcome (m w) with
  | Normal a => mkRes (outcome (f a (world (m w)))) (world (f a (world (m w))))
                      (events (m w) ++ events (f a (world (m w))))
  | Throw e => mkRes (Throw e) (world (m w)) (events (m w))
  end.
Proof.
  unfold mbind, M_bind. destruct (m w) as [[a|e] w1 evs1]; cbn; [|done].
  by destruct (f a w1).
Qed.

Lemma try_catch_unfold {A} (m : M A) (h : Error → M A) w :
  try_catch m h w =
  match outcome (m w) with
  | Normal a => mkRes (Normal a) (world (m w)) (events (m w))
  | Throw e => mkRes (outcome (h e (world (m w)))) (world (h e (world (m w))))
                     (events (m w) ++ events (h e (world (m w))))
  end.
Proof.
  unfold try_catch. destruct (m w) as [[a|e] w1 evs1]; cbn; [done|].
  by destruct (h e w1).
Qed.

Lemma keeps_bind {A B} P (m : M A) (f : A → M B) :
  keeps P m → (∀ a, keeps P (f a)) → keeps P (m ≫= f).
Proof.
  intros Hm Hf w Hw. rewrite bind_unfold.
  specialize (Hm w Hw). destruct (outcome (m w)); cbn; [by apply Hf | done].
Qed.

Lemma keeps_try_catch {A} P (m : M A) h :
  keeps P m → (∀ e, keeps P (h e)) → keeps P (try_catch m h).
Proof.
  intros Hm Hh w Hw. rewrite try_catch_unfold.
  specialize (Hm w Hw). destruct (outcome (m w)); cbn; [done | by apply Hh].
Qed.

Lemma emits_only_bind {A B} Q (m : M A) (f : A → M B) :
  emits_only Q m → (∀ a, emits_only Q (f a)) → emits_only Q (m ≫= f).
Proof.
  intros Hm Hf w. rewrite bind_unfold.
  destruct (outcome (m w)); cbn; [|done].
  apply Forall_app; split; [apply Hm | apply Hf].
Qed.

Lemma emits_only_try_catch {A} Q (m : M A) h :
  emits_only Q m → (∀ e, emits_only Q (h e)) → emits_only Q (try_catch m h).
Proof.
  intros Hm Hh w. rewrite try_catch_unfold.
  destruct (outcome (m w)); cbn; [done|].
  apply Forall_app; split; [apply Hm | apply Hh].
Qed.

Lemma never_throws_try_catch {A} (m : M A) h :
  (∀ e, never_throws (h e)) → never_throws (try_catch m h).
Proof.
  intros Hh w. rewrite try_catch_unfold.
  destruct (outcome (m w)) as [a|e]; cbn; [by exists a | apply Hh].
Qed.

(** The [catch] block of both scripts: it logs the error and sets the
    status; it cannot throw. *)
Lemma catch_handler_run e w :
  catch_handler e w =
  mkRes (Normal tt)
        (match status (page w) with
         | None => w
         | Some _ =>
             mkWorld (mkDom (Some (mkStatusEl ("상태: " +:+ "오류: " +:+ message e) "#FF7C7C"))
                            (tokenPreview (page w)) (btn (page w)))
                     (subscribers w) (apps w)
         end)
        [ConsoleError e; CallSetStatus ("오류: " +:+ message e) false].
Proof.
  destruct w as [[st tp b] subs ap]. unfold_prims. cbn. by destruct st.
Qed.

Lemma catch_handler_never_throws e : never_throws (catch_handler e).
Proof. intros w. exists tt. by rewrite catch_handler_run. Qed.

(** *** Invariants of the primitive steps *)

Lemma keeps_mret {A} P (a : A) : keeps P (mret a).
Proof. by intros w Hw. Qed.

Lemma keeps_throw {A} P e : keeps P (throw (A:=A) e).
Proof. by intros w Hw. Qed.

Lemma keeps_emit P ev : keeps P (emit ev).
Proof. by intros w Hw. Qed.

Lemma keeps_await {A} P ev (p : Settled A) : keeps P (await ev p).
Proof.
  apply keeps_bind; [apply keeps_emit|]. intros _.
  destruct p; [apply keeps_mret | apply keeps_throw].
Qed.

Lemma keeps_sdk_call P r : keeps P (sdk_call r).
Proof. destruct r; [apply keeps_throw | apply keeps_mret]. Qed.

#[export] Hint Resolve keeps_mret keeps_throw keeps_emit keeps_await keeps_sdk_call : run.

Lemma has_status_setStatus msg ok : keeps has_status (setStatus msg ok).
Proof.
  intros [[st tp b] subs ap] Hw. unfold_prims. cbn in *.
  destruct st; cbn; [by eexists | done].
Qed.

Lemma has_status_write_preview text : keeps has_status (write_preview text).
Proof.
  intros [[st tp b] subs ap] Hw. unfold_prims. cbn in *. by destruct tp.
Qed.

Lemma has_status_initializeApp env : keeps has_status (initializeApp env).
Proof.
  intros [[st tp b] subs ap] Hw. unfold_prims. cbn in *. by destruct ap, (initialize_again env).
Qed.

Lemma has_status_store_set_merge env key data :
  keeps has_status (store_set_merge env key data).
Proof.
  intros [[st tp b] subs ap] Hw. unfold_prims. cbn in *. by destruct (store_set env).
Qed.

#[export] Hint Resolve has_status_setStatus has_status_write_preview
  has_status_initializeApp has_status_store_set_merge : run.

Lemma has_status_page_body env : keeps has_status (PageScript.body env).
Proof.
  unfold PageScript.body, PageScript.setTokenPreview. by_steps @keeps_bind.
Qed.

Lemma has_status_loader_body env : keeps has_status (LoaderScript.body env).
Proof.
  unfold LoaderScript.body, LoaderScript.registerServiceWorker. by_steps @keeps_bind.
Qed.

Lemma try_catch_reports (body : Env → M unit) env w e :
  keeps has_status (body env) →
  outcome (body env w) = Throw e →
  reports_failure e w (try_catch (body env) catch_handler w).
Proof.
  intros Hkeep Hthrow. rewrite try_catch_unfold, Hthrow, catch_handler_run. cbn.
  split; [by eexists|].
  intros Hst. apply Hkeep in Hst. by destruct Hst as [el ->].
Qed.

Lemma try_catch_returns (body : Env → M unit) env w :
  outcome (try_catch (body env) catch_handler w) = Normal tt.
Proof.
  destruct (never_throws_try_catch (body env) catch_handler
              catch_handler_never_throws w) as [[] H].
  exact H.
Qed.

(** C1. In both scripts [registerPush] returns normally whatever the browser
    and the SDK answer; when a step inside the [try] block fails with an
    error [e], the run ends with the failure status for [e] being set. *)
Theorem registerPush_never_rejects (env : Env) (w : World) :
  (outcome (PageScript.registerPush env w) = Normal tt ∧
   ∀ e, outcome (PageScript.body env w) = Throw e →
        reports_failure e w (PageScript.registerPush env w)) ∧
  (outcome (LoaderScript.registerPush env w) = Normal tt ∧
   ∀ e, outcome (LoaderScript.body env w) = Throw e →
        reports_failure e w (LoaderScript.registerPush env w)).
Proof.
  split; split.
  - apply try_catch_returns.
  - intros e. apply try_catch_reports, has_status_page_body.
  - apply try_catch_returns.
  - intros e. apply try_catch_reports, has_status_loader_body.
Qed.

Lemma registerPush_never_rejects_witness :
  reports_failure (mkError "firebase SDK not loaded") (fresh_world page_full)
    (PageScript.registerPush env_no_sdk (fresh_world page_full)) ∧
  reports_failure (mkError "unavailable") (fresh_world page_full)
    (LoaderScript.registerPush (with_store_error (mkError "unavailable") env_ok)
                               (fresh_world page_full)).
Proof.
  split.
  - apply (registerPush_never_rejects env_no_sdk (fresh_world page_full)).
    reflexivity.
  - apply (registerPush_never_rejects
             (with_store_error (mkError "unavailable") env_ok) (fresh_world page_full)).
    reflexivity.
Defined.

(** C2. When the permission prompt answers anything but "granted", both
    scripts return without calling [getToken] and without a store write and
    leave the remote collection unchanged.  When the steps before the prompt
    go through, the run asks for the permission and ends by setting the
    denied status. *)
Theorem permission_not_granted_stops (env : Env) (w : World) (p : Permission) :
  permission env = Fulfilled p → p ≠ Granted →
  (stops_at_denied w (PageScript.registerPush env w) ∧
   (sdk_ready env w → worker_ready (sw_ready env) env →
    ends_denied w (PageScript.registerPush env w))) ∧
  (stops_at_denied w (LoaderScript.registerPush env w) ∧
   (worker_ready (sw_register env "./app.js") env →
    ends_denied w (LoaderScript.registerPush env w))).
Proof.
  intros Hp Hne.
  destruct w as [[st tp b] subs ap], env; cbn in Hp; subst.
  split; split.
  - unfold_scripts; unfold_prims.
    follow_run; try done; unfold stops_at_denied, has_status; cbn;
      repeat split; try done; by intros [? ?].
  - open_ready; unfold_scripts; unfold_prims;
      (follow_run; try done; unfold ends_denied, has_status; cbn;
       repeat split; try done; by intros [? ?]).
  - unfold_scripts; unfold_prims.
    follow_run; try done; unfold stops_at_denied, has_status; cbn;
      repeat split; try done; by intros [? ?].
  - unfold worker_ready. cbn. intros [-> [reg Hreg]].
    unfold_scripts; unfold_prims. cbn. rewrite Hreg.
    follow_run; try done; unfold ends_denied, has_status; cbn;
      repeat split; try done; by intros [? ?].
Qed.

Lemma permission_not_granted_stops_witness :
  permission (with_permission (Fulfilled Denied) env_ok) = Fulfilled Denied ∧
  Denied ≠ Granted ∧
  (stops_at_denied (fresh_world page_full)
     (PageScript.registerPush (with_permission (Fulfilled Denied) env_ok)
                              (fresh_world page_full)) ∧
   ends_denied (fresh_world page_full)
     (PageScript.registerPush (with_permission (Fulfilled Denied) env_ok)
                              (fresh_world page_full))) ∧
  (stops_at_denied (fresh_world page_full)
     (LoaderScript.registerPush (with_permission (Fulfilled Denied) env_ok)
                                (fresh_world page_full)) ∧
   ends_denied (fresh_world page_full)
     (LoaderScript.registerPush (with_permission (Fulfilled Denied) env_ok)
                                (fresh_world page_full))).
Proof.
  split; [reflexivity|]. split; [discriminate|].
  destruct (permission_not_granted_stops
              (with_permission (Fulfilled Denied) env_ok) (fresh_world page_full) Denied)
    as [[H1 H2] [H3 H4]]; [reflexivity | discriminate |].
  split; (split; [assumption|]).
  - apply H2.
    + repeat split; try reflexivity. by left.
    + split; [reflexivity | by eexists].
  - apply H4. split; [reflexivity | by eexists].
Defined.

(** C3. When [getToken] resolves to an empty string or to no token, neither
    script calls the store write and the collection is unchanged.  When the
    steps up to [getToken] go through, the run asks for the token and ends
    by setting a failure status: the message of the thrown error in one
    script, the token failure message in the other. *)
Theorem empty_token_no_write (env : Env) (w : World) (token : option string) :
  get_token env = Fulfilled token → Js.truthy token = false →
  (fails_without_write ("오류: " +:+ "token is empty") w (PageScript.registerPush env w) ∧
   (sdk_ready env w → worker_ready (sw_ready env) env →
    permission env = Fulfilled Granted →
    ends_failed ("오류: " +:+ "token is empty") w (PageScript.registerPush env w))) ∧
  (fails_without_write "토큰 발급 실패" w (LoaderScript.registerPush env w) ∧
   (worker_ready (sw_register env "./app.js") env →
    permission env = Fulfilled Granted →
    ends_failed "토큰 발급 실패" w (LoaderScript.registerPush env w))).
Proof.
  intros Htok Hempty.
  destruct w as [[st tp b] subs ap], env; cbn in Htok; subst.
  split; split.
  - unfold_scripts; unfold_prims.
    follow_run; unfold fails_without_write, has_status; cbn;
      repeat split; try done; by intros [? ?].
  - open_ready; unfold_scripts; unfold_prims;
      (follow_run; try done; unfold ends_failed, has_status; cbn;
       repeat split; try done; by intros [? ?]).
  - unfold_scripts; unfold_prims.
    follow_run; unfold fails_without_write, has_status; cbn;
      repeat split; try done; by intros [? ?].
  - unfold worker_ready. cbn. intros [-> [reg Hreg]] ->.
    unfold_scripts; unfold_prims. cbn. rewrite Hreg.
    follow_run; try done; unfold ends_failed, has_status; cbn;
      repeat split; try done; by intros [? ?].
Qed.

Lemma empty_token_no_write_witness :
  get_token (with_token (Fulfilled (Some EmptyString)) env_ok) = Fulfilled (Some EmptyString) ∧
  Js.truthy (Some EmptyString) = false ∧
  (fails_without_write ("오류: " +:+ "token is empty") (fresh_world page_full)
     (PageScript.registerPush (with_token (Fulfilled (Some EmptyString)) env_ok)
                              (fresh_world page_full)) ∧
   ends_failed ("오류: " +:+ "token is empty") (fresh_world page_full)
     (PageScript.registerPush (with_token (Fulfilled (Some EmptyString)) env_ok)
                              (fresh_world page_full))) ∧
  (fails_without_write "토큰 발급 실패" (fresh_world page_full)
     (LoaderScript.registerPush (with_token (Fulfilled (Some EmptyString)) env_ok)
                                (fresh_world page_full)) ∧
   ends_failed "토큰 발급 실패" (fresh_world page_full)
     (LoaderScript.registerPush (with_token (Fulfilled (Some EmptyString)) env_ok)
                                (fresh_world page_full))).
Proof.
  split; [reflexivity|]. split; [reflexivity|].
  destruct (empty_token_no_write
              (with_token (Fulfilled (Some EmptyString)) env_ok) (fresh_world page_full)
              (Some EmptyString))
    as [[H1 H2] [H3 H4]]; [reflexivity | reflexivity |].
  split; (split; [assumption|]).
  - apply H2; [| | reflexivity].
    + repeat split; try reflexivity. by left.
    + split; [reflexivity | by eexists].
  - apply H4; [| reflexivity]. split; [reflexivity | by eexists].
Defined.

(** The claim of C8 fails for the script that initialises the SDK on every
    click: with a store that rejects the write, the preview is on the page
    although nothing was persisted. *)
Lemma preview_before_persist_counterexample :
  let r := PageScript.registerPush (with_store_error store_down env_ok)
                                   (fresh_world page_full) in
  preview_after is_persisted false (events r) = false ∧
  existsb is_persisted (events r) = false ∧
  subscribers (world r) = ∅ ∧
  tokenPreview (page (world r)) = Some "abcdefghijkl...qrstuvwx".
Proof. vm_compute. done. Qed.

(** C8, amended.  The script that initialises the SDK when it is loaded
    writes the preview only after the store write has resolved, and leaves
    the preview element as it was when the write is rejected.  The script
    that initialises the SDK on every click writes the preview at most once,
    only after a non-empty token has been obtained and before it calls the
    store write; when the steps up to [getToken] go through and the token
    is not empty, a preview element of the page does get the preview of the
    token, whether or not the write is accepted afterwards. *)
Theorem preview_write_order (env : Env) (w : World) :
  (preview_after is_persisted false (events (LoaderScript.registerPush env w)) = true ∧
   (is_Some (store_set env) →
    tokenPreview (page (world (LoaderScript.registerPush env w))) = tokenPreview (page w))) ∧
  (preview_after is_token_logged false (events (PageScript.registerPush env w)) = true ∧
   (count_calls is_preview_write (events (PageScript.registerPush env w)) ≤ 1)%nat ∧
   (is_Some (tokenPreview (page w)) →
    each_after is_preview_write is_store_set false
      (events (PageScript.registerPush env w)) = true) ∧
   (∀ t, sdk_ready env w → worker_ready (sw_ready env) env →
         permission env = Fulfilled Granted →
         get_token env = Fulfilled (Some t) → t ≠ EmptyString →
         is_Some (tokenPreview (page w)) →
         existsb is_preview_write (events (PageScript.registerPush env w)) = true ∧
         tokenPreview (page (world (PageScript.registerPush env w))) =
           Some (preview_text t))).
Proof.
  destruct w as [[st tp b] subs ap], env.
  split; [split | split; [|split; [|split]]].
  - unfold_scripts; unfold_prims. follow_run; done.
  - unfold_scripts; unfold_prims. cbn. intros [e ->]. follow_run; done.
  - unfold_scripts; unfold_prims. follow_run; done.
  - unfold_scripts; unfold_prims. follow_run; cbn; lia.
  - cbn. intros [old ->]. unfold_scripts; unfold_prims. follow_run; done.
  - intros t. open_ready; destruct t as [|c t]; try done;
      unfold_scripts; unfold_prims; (follow_run; done).
Qed.

Lemma preview_write_order_witness :
  (preview_after is_persisted false
     (events (LoaderScript.registerPush (with_store_error store_down env_ok)
                                        (fresh_world page_full))) = true ∧
   tokenPreview (page (world (LoaderScript.registerPush (with_store_error store_down env_ok)
                                                       (fresh_world page_full)))) = Some "-") ∧
  (each_after is_preview_write is_store_set false
     (events (PageScript.registerPush (with_store_error store_down env_ok)
                                      (fresh_world page_full))) = true ∧
   existsb is_store_set
     (events (PageScript.registerPush (with_store_error store_down env_ok)
                                      (fresh_world page_full))) = true ∧
   tokenPreview (page (world (PageScript.registerPush (with_store_error store_down env_ok)
                                                     (fresh_world page_full)))) =
     Some (preview_text sample_token)).
Proof.
  destruct (preview_write_order (with_store_error store_down env_ok)
                                (fresh_world page_full)) as [[H1 H2] (_ & _ & H3 & H4)].
  split; [split; [exact H1 | apply H2; cbn; by eexists]|].
  split; [apply H3; by eexists|]. split; [reflexivity|].
  apply (H4 sample_token); try reflexivity.
  - repeat split; try reflexivity. by left.
  - split; [reflexivity | by eexists].
  - discriminate.
  - by eexists.
Defined.

Lemma set_merge_idem key (data : gmap string string) coll :
  Firestore.set_merge key data (Firestore.set_merge key data coll) =
  Firestore.set_merge key data coll.
Proof.
  unfold Firestore.set_merge. rewrite lookup_insert_eq, insert_insert_eq. cbn.
  by rewrite (assoc_L (∪)), (idemp_L (∪)).
Qed.

Example first_click_succeeds :
  let r := click PageScript.registerPush env_ok
             (world (PageScript.load env_ok (fresh_world page_full))) in
  last (events r) = Some (CallSetStatus "등록 완료 ✅ 이제 푸시를 받을 수 있습니다!" true) ∧
  existsb is_persisted (events r) = true ∧
  apps (world r) = true.
Proof. vm_compute. done. Qed.




(** The script that initialises the SDK when it is loaded never looks at the
    application registry again: a retry runs as the first attempt did. *)
Lemma loader_registerPush_ignores_apps env d subs a1 a2 :
  let r1 := LoaderScript.registerPush env (mkWorld d subs a1) in
  let r2 := LoaderScript.registerPush env (mkWorld d subs a2) in
  outcome r1 = outcome r2 ∧ events r1 = events r2 ∧
  page (world r1) = page (world r2) ∧
  subscribers (world r1) = subscribers (world r2) ∧
  apps (world r1) = a1.
Proof.
  destruct d as [st tp b], env.
  unfold_scripts; unfold_prims. follow_run; done.
Qed.

(** *** The remote write *)

Lemma store_set_merge_world env token w :
  store_set env = None →
  subscribers (world (store_set_merge env token (subscriber_record env token) w)) =
  persist env token (subscribers w).
Proof. intros H. destruct w. unfold_prims. rewrite H. done. Qed.

Lemma subscriber_record_lookup env token f :
  subscriber_record env token !! f =
  if decide (f = "token") then Some token
  else if decide (f = "ua") then Some (userAgent env)
  else if decide (f = "createdAt") then Some (now env)
  else None.
Proof.
  unfold subscriber_record.
  repeat case_decide; subst; simplify_map_eq; done.
Qed.

Lemma subscriber_record_absorbs env1 env2 token (old : gmap string string) :
  subscriber_record env2 token ∪ (subscriber_record env1 token ∪ old) =
  subscriber_record env2 token ∪ old.
Proof.
  apply map_eq. intros f.
  rewrite !lookup_union, !subscriber_record_lookup.
  repeat case_decide; by destruct (old !! f).
Qed.

(** As C5 states it the property fails: the record carries the time of the
    write, so a second write of the same token at a later time leaves a
    store that differs from the store after the first write. *)
Lemma persist_twice_counterexample :
  persist (with_now "2024-01-02T00:00:00.000Z" env_ok) sample_token
          (persist env_ok sample_token ∅)
  ≠ persist env_ok sample_token ∅.
Proof.
  intros H.
  apply (f_equal (λ c, c !! sample_token ≫= (.!! "createdAt"))) in H.
  vm_compute in H. discriminate H.
Qed.

(** C5, amended.  A second merge-write of the same token absorbs the first:
    the store is the one the second write alone produces (so writing the
    same record twice is idempotent), the collection has the keys it had
    plus the token, the second write adds no record, every other document
    is untouched, and fields the record does not name are kept. *)
Theorem persist_absorbs (env1 env2 : Env) (token : string)
    (coll : gmap string (gmap string string)) :
  persist env2 token (persist env1 token coll) = persist env2 token coll ∧
  persist env1 token (persist env1 token coll) = persist env1 token coll ∧
  dom (persist env2 token (persist env1 token coll)) = {[token]} ∪ dom coll ∧
  size (persist env2 token (persist env1 token coll)) = size (persist env1 token coll) ∧
  (∀ key, key ≠ token →
          persist env2 token (persist env1 token coll) !! key = coll !! key) ∧
  (∀ doc f, coll !! token = Some doc →
            f ≠ "token" → f ≠ "ua" → f ≠ "createdAt" →
            persist env2 token (persist env1 token coll) !! token ≫= (.!! f) = doc !! f).
Proof.
  assert (Habs : ∀ e1 e2, persist e2 token (persist e1 token coll) = persist e2 token coll).
  { intros e1 e2. unfold persist, Firestore.set_merge.
    rewrite lookup_insert_eq, insert_insert_eq. cbn.
    by rewrite subscriber_record_absorbs. }
  split; [apply Habs|]. split; [apply Habs|].
  rewrite Habs. unfold persist, Firestore.set_merge.
  split; [by rewrite dom_insert_L|].
  split; [by rewrite !map_size_insert|]. split.
  - intros key Hne. by rewrite lookup_insert_ne.
  - intros doc f Hdoc H1 H2 H3.
    rewrite lookup_insert_eq, Hdoc. cbn.
    rewrite lookup_union, subscriber_record_lookup.
    repeat case_decide; try done. by destruct (doc !! f).
Qed.

Lemma persist_absorbs_witness :
  persist (with_now "2024-01-02T00:00:00.000Z" env_ok) sample_token
          (persist env_ok sample_token {[ sample_token := {[ "note" := "kept" ]} ]})
    !! sample_token ≫= (.!! "note") = Some "kept".
Proof.
  destruct (persist_absorbs env_ok (with_now "2024-01-02T00:00:00.000Z" env_ok)
              sample_token {[ sample_token := {[ "note" := "kept" ]} ]})
    as (_ & _ & _ & _ & _ & H).
  rewrite (H {[ "note" := "kept" ]} "note"); [reflexivity | reflexivity | done..].
Defined.

(** *** The token preview *)

Lemma substring_take (n : nat) (s : string) :
  String.substring 0 n s = String.string_of_list_ascii (take n (String.list_ascii_of_string s)).
Proof.
  revert s. induction n as [|n IH]; intros [|c s]; cbn; try done.
  by rewrite IH.
Qed.

Lemma substring_drop (k : nat) (s : string) :
  String.substring k (String.length s - k) s =
  String.string_of_list_ascii (drop k (String.list_ascii_of_string s)).
Proof.
  revert s. induction k as [|k IH]; intros s.
  - rewrite Nat.sub_0_r, substring_take, drop_0.
    rewrite take_ge; [done|].
    clear. induction s; cbn; lia.
  - destruct s as [|c s]; cbn; [done | apply IH].
Qed.

Lemma length_list_ascii (s : string) :
  length (String.list_ascii_of_string s) = String.length s.
Proof. induction s; cbn; congruence. Qed.

Lemma slice_first (n : nat) (s : string) :
  Js.slice s 0 (Some (Z.of_nat n)) = Js.first_chars n s.
Proof.
  unfold Js.slice, Js.first_chars, Js.clamp_index. cbn [Z.ltb Z.compare].
  destruct (Z.ltb_spec (Z.of_nat n) 0) as [?|_]; [lia|].
  rewrite Z.min_l by lia. rewrite Z.sub_0_r. cbn [Z.to_nat].
  rewrite substring_take.
  destruct (Nat.le_gt_cases n (String.length s)) as [Hle|Hgt].
  - by replace (Z.to_nat (Z.max (Z.min (Z.of_nat n) (Z.of_nat (String.length s))) 0)) with n by lia.
  - replace (Z.to_nat (Z.max (Z.min (Z.of_nat n) (Z.of_nat (String.length s))) 0))
      with (String.length s) by lia.
    rewrite !take_ge; [done | |]; rewrite length_list_ascii; lia.
Qed.

Lemma slice_last (n : nat) (s : string) :
  (0 < n)%nat → Js.slice s (- Z.of_nat n) None = Js.last_chars n s.
Proof.
  intros Hn. unfold Js.slice, Js.last_chars, Js.clamp_index.
  destruct (Z.ltb_spec (- Z.of_nat n) 0) as [_|?]; [|lia].
  rewrite length_list_ascii.
  set (len := String.length s).
  replace (Z.to_nat (Z.max (Z.of_nat len + - Z.of_nat n) 0)) with (len - n)%nat by lia.
  replace (Z.to_nat (Z.max (Z.of_nat len - Z.max (Z.of_nat len + - Z.of_nat n) 0) 0))
    with (len - (len - n))%nat by lia.
  apply substring_drop.
Qed.



(** *** The service worker's fetch listener *)

(** C6. For every request the fetch listener hands [respondWith] exactly
    what the network gives for that same request, be it a response or a
    failure, and the request it sends to the network is the intercepted
    one. *)
Theorem fetch_is_pass_through {Request Response : Type}
    (network : Request → Settled Response) (request : Request) :
  SW.response_of Request Response
    (SW.dispatch Request Response network (SW.Fetch Request request)) =
    Some (network request) ∧
  SW.network_requests Request Response
    (SW.dispatch Request Response network (SW.Fetch Request request)) = [request].
Proof. split; reflexivity. Qed.

(** *** Missing elements *)

Lemma page_is_setStatus d msg ok :
  status d = None → keeps (page_is d) (setStatus msg ok).
Proof.
  intros Hd [[st tp b] subs ap] Hw. unfold page_is in *. cbn in Hw. subst d.
  cbn in Hd. subst st. done.
Qed.

Lemma page_is_write_preview d text :
  tokenPreview d = None → keeps (page_is d) (write_preview text).
Proof.
  intros Hd [[st tp b] subs ap] Hw. unfold page_is in *. cbn in Hw. subst d.
  cbn in Hd. subst tp. done.
Qed.

Lemma page_is_initializeApp d env : keeps (page_is d) (initializeApp env).
Proof.
  intros [pg subs ap] Hw. unfold_prims. cbn. by destruct ap, (initialize_again env).
Qed.

Lemma page_is_store_set_merge d env key data :
  keeps (page_is d) (store_set_merge env key data).
Proof. intros [pg subs ap] Hw. unfold_prims. cbn. by destruct (store_set env). Qed.

#[export] Hint Resolve page_is_setStatus page_is_write_preview
  page_is_initializeApp page_is_store_set_merge : run.

Lemma page_is_registerPush d env :
  status d = None → tokenPreview d = None →
  keeps (page_is d) (PageScript.registerPush env) ∧
  keeps (page_is d) (LoaderScript.registerPush env).
Proof.
  intros Hs Hp. split; apply keeps_try_catch.
  - unfold PageScript.body, PageScript.setTokenPreview. by_steps @keeps_bind.
  - intros e. unfold catch_handler. by_steps @keeps_bind.
  - unfold LoaderScript.body, LoaderScript.registerServiceWorker. by_steps @keeps_bind.
  - intros e. unfold catch_handler. by_steps @keeps_bind.
Qed.

(** C9. A missing status element makes [setStatus] do nothing, a missing
    preview element makes both ways of writing the preview do nothing, and
    a missing button makes the wiring do nothing (and a click run no
    listener); none of them throws.  With the two text elements missing a
    whole run of [registerPush] leaves the page as it was. *)
Theorem missing_elements_are_tolerated (w : World) :
  (status (page w) = None →
   ∀ msg ok, outcome (setStatus msg ok w) = Normal tt ∧
             world (setStatus msg ok w) = w) ∧
  (tokenPreview (page w) = None →
   ∀ token text,
     PageScript.setTokenPreview token w = mkRes (Normal tt) w [] ∧
     write_preview text w = mkRes (Normal tt) w []) ∧
  (btn (page w) = None →
   wire_button w = mkRes (Normal tt) w [] ∧
   ∀ script env, click script env w = mkRes (Normal tt) w []) ∧
  (status (page w) = None → tokenPreview (page w) = None →
   ∀ env, page (world (PageScript.registerPush env w)) = page w ∧
          page (world (LoaderScript.registerPush env w)) = page w).
Proof.
  split; [|split; [|split]].
  - destruct w as [[st tp b] subs ap]. cbn. intros ->. done.
  - destruct w as [[st tp b] subs ap]. cbn. intros ->. done.
  - destruct w as [[st tp b] subs ap]. cbn. intros ->. done.
  - intros Hs Hp env.
    destruct (page_is_registerPush (page w) env Hs Hp) as [H0 H1].
    split; [apply H0 | apply H1]; done.
Qed.

Lemma missing_elements_are_tolerated_witness :
  status page_bare = None ∧ tokenPreview page_bare = None ∧ btn page_bare = None ∧
  world (setStatus "초기화 중..." true (fresh_world page_bare)) = fresh_world page_bare ∧
  PageScript.setTokenPreview (Some sample_token) (fresh_world page_bare) =
    mkRes (Normal tt) (fresh_world page_bare) [] ∧
  wire_button (fresh_world page_bare) = mkRes (Normal tt) (fresh_world page_bare) [] ∧
  page (world (PageScript.registerPush env_ok (fresh_world page_bare))) = page_bare.
Proof.
  destruct (missing_elements_are_tolerated (fresh_world page_bare))
    as (H1 & H2 & H3 & H4).
  do 3 (split; [reflexivity|]).
  split; [apply (H1 eq_refl)|].
  split; [apply (H2 eq_refl (Some sample_token) EmptyString)|].
  split; [apply (H3 eq_refl) | apply (H4 eq_refl eq_refl env_ok)].
Defined.

(** *** The key of a record is its token *)

Lemma truthy_nonempty token : Js.truthy token = true → default EmptyString token ≠ EmptyString.
Proof. by destruct token as [[|c s]|]. Qed.

Lemma persist_keyed env token coll :
  token ≠ EmptyString → keyed_by_token coll → keyed_by_token (persist env token coll).
Proof.
  intros Hne Hcoll key doc. unfold persist, Firestore.set_merge.
  rewrite lookup_insert. case_decide as Hk.
  - subst key. intros [= <-]. split; [done|].
    rewrite lookup_union, subscriber_record_lookup.
    rewrite decide_True by done. by destruct (_ !! "token").
  - apply Hcoll.
Qed.

Lemma store_keyed_setStatus msg ok : keeps store_keyed (setStatus msg ok).
Proof. intros [[st tp b] subs ap] Hw. unfold_prims. cbn. by destruct st. Qed.

Lemma store_keyed_write_preview text : keeps store_keyed (write_preview text).
Proof. intros [[st tp b] subs ap] Hw. unfold_prims. cbn. by destruct tp. Qed.

Lemma store_keyed_initializeApp env : keeps store_keyed (initializeApp env).
Proof.
  intros [pg subs ap] Hw. unfold_prims. cbn. by destruct ap, (initialize_again env).
Qed.

Lemma store_keyed_store_set_merge env token :
  Js.truthy token = true →
  keeps store_keyed
    (store_set_merge env (default EmptyString token) (subscriber_record env (default EmptyString token))).
Proof.
  intros Ht w Hw. unfold store_keyed.
  destruct (store_set env) as [e|] eqn:Hset.
  - destruct w. unfold_prims. rewrite Hset. exact Hw.
  - rewrite store_set_merge_world by done.
    by apply persist_keyed; [apply truthy_nonempty|].
Qed.

#[export] Hint Resolve store_keyed_setStatus store_keyed_write_preview
  store_keyed_initializeApp store_keyed_store_set_merge : run.

Lemma emits_mret {A} Q (a : A) : emits_only Q (mret a).
Proof. intros w. constructor. Qed.

Lemma emits_throw {A} Q e : emits_only Q (throw (A:=A) e).
Proof. intros w. constructor. Qed.

Lemma emits_emit (Q : Event → Prop) ev : Q ev → emits_only Q (emit ev).
Proof. intros H w. by repeat constructor. Qed.

Lemma emits_sdk_call Q r : emits_only Q (sdk_call r).
Proof. destruct r; [apply emits_throw | apply emits_mret]. Qed.

Lemma emits_await {A} (Q : Event → Prop) ev (p : Settled A) :
  Q ev → emits_only Q (await ev p).
Proof.
  intros H. apply emits_only_bind; [by apply emits_emit|]. intros _.
  destruct p; [apply emits_mret | apply emits_throw].
Qed.

Lemma write_keyed_setStatus msg ok : emits_only write_keyed (setStatus msg ok).
Proof.
  intros [[st tp b] subs ap]. unfold_prims. cbn. destruct st; by repeat constructor.
Qed.

Lemma write_keyed_write_preview text : emits_only write_keyed (write_preview text).
Proof.
  intros [[st tp b] subs ap]. unfold_prims. cbn. destruct tp; by repeat constructor.
Qed.

Lemma write_keyed_initializeApp env : emits_only write_keyed (initializeApp env).
Proof.
  intros [pg subs ap]. unfold_prims. cbn.
  destruct ap, (initialize_again env); by repeat constructor.
Qed.

Lemma write_keyed_store_set_merge env token :
  Js.truthy token = true →
  emits_only write_keyed
    (store_set_merge env (default EmptyString token) (subscriber_record env (default EmptyString token))).
Proof.
  intros Ht [pg subs ap].
  assert (write_keyed (CallStoreSet (default EmptyString token)
                                    (subscriber_record env (default EmptyString token)))) as Hw.
  { split; [by apply truthy_nonempty|].
    rewrite subscriber_record_lookup. by rewrite decide_True. }
  unfold_prims. destruct (store_set env); cbn;
    repeat (constructor; [first [exact Hw | exact I]|]); constructor.
Qed.

#[export] Hint Resolve emits_mret emits_throw emits_sdk_call
  write_keyed_setStatus write_keyed_write_preview write_keyed_initializeApp
  write_keyed_store_set_merge : run.
#[export] Hint Extern 1 (emits_only write_keyed (emit _)) =>
  apply emits_emit; exact I : run.
#[export] Hint Extern 1 (emits_only write_keyed (await _ _)) =>
  apply emits_await; exact I : run.

(** C10. Every store write of a run has a non-empty key and a record whose
    [token] field is that key; a collection in which every document is
    keyed by its non-empty token stays so through a run of either script. *)
Theorem records_keyed_by_token (env : Env) (w : World) :
  (Forall write_keyed (events (PageScript.registerPush env w)) ∧
   Forall write_keyed (events (LoaderScript.registerPush env w))) ∧
  (keyed_by_token (subscribers w) →
   keyed_by_token (subscribers (world (PageScript.registerPush env w))) ∧
   keyed_by_token (subscribers (world (LoaderScript.registerPush env w)))).
Proof.
  split; [split | intros Hw; split].
  - revert w. apply emits_only_try_catch.
    + unfold PageScript.body, PageScript.setTokenPreview. cbv zeta.
      by_steps @emits_only_bind.
    + intros e. unfold catch_handler. by_steps @emits_only_bind.
  - revert w. apply emits_only_try_catch.
    + unfold LoaderScript.body, LoaderScript.registerServiceWorker. cbv zeta.
      by_steps @emits_only_bind.
    + intros e. unfold catch_handler. by_steps @emits_only_bind.
  - revert w Hw. apply (keeps_try_catch store_keyed).
    + unfold PageScript.body, PageScript.setTokenPreview. cbv zeta.
      by_steps @keeps_bind.
    + intros e. unfold catch_handler. by_steps @keeps_bind.
  - revert w Hw. apply (keeps_try_catch store_keyed).
    + unfold LoaderScript.body, LoaderScript.registerServiceWorker. cbv zeta.
      by_steps @keeps_bind.
    + intros e. unfold catch_handler. by_steps @keeps_bind.
Qed.

Lemma records_keyed_by_token_witness :
  keyed_by_token ∅ ∧
  keyed_by_token (subscribers (world (PageScript.registerPush env_ok (fresh_world page_full)))) ∧
  subscribers (world (PageScript.registerPush env_ok (fresh_world page_full)))
    !! sample_token ≫= (.!! "token") = Some sample_token.
Proof.
  assert (H0 : keyed_by_token ∅) by (intros key doc H; by rewrite lookup_empty in H).
  split; [exact H0|]. split; [|reflexivity].
  apply (records_keyed_by_token env_ok (fresh_world page_full)). exact H0.
Defined.

(** * Further properties of the page scripts *)

(** ** What a run shows *)

(** X1. On a page with a status element, the element ends a run showing the
    message and colour of the last [setStatus] call of that run, whatever
    it showed before. *)
Theorem status_shows_last_call (env : Env) (w : World) :
  has_status w →
  status (page (world (PageScript.registerPush env w))) =
    status_after None (events (PageScript.registerPush env w)) ∧
  status (page (world (LoaderScript.registerPush env w))) =
    status_after None (events (LoaderScript.registerPush env w)).
Proof.
  destruct w as [[st tp b] subs ap], env. intros [el Hel]. cbn in Hel. subst st.
  split; unfold_scripts; unfold_prims; follow_run; reflexivity.
Qed.

Lemma status_shows_last_call_witness :
  has_status (fresh_world page_full) ∧
  status (page (world (PageScript.registerPush (with_permission (Fulfilled Default) env_ok)
                                               (fresh_world page_full)))) =
    Some (status_shown "알림 권한이 거부되었습니다" false).
Proof.
  assert (H : has_status (fresh_world page_full)) by (by eexists).
  split; [exact H|].
  destruct (status_shows_last_call (with_permission (Fulfilled Default) env_ok)
              (fresh_world page_full) H) as [H0 _].
  rewrite H0. reflexivity.
Defined.

(** X2. The success message is set in exactly the runs in which the store
    write resolved: no run reports success without the record being
    written, and none writes the record without reporting success. *)
Theorem success_iff_persisted (env : Env) (w : World) :
  existsb is_success (events (PageScript.registerPush env w)) =
    existsb is_persisted (events (PageScript.registerPush env w)) ∧
  existsb is_success (events (LoaderScript.registerPush env w)) =
    existsb is_persisted (events (LoaderScript.registerPush env w)).
Proof.
  destruct w as [[st tp b] subs ap], env.
  split; unfold_scripts; unfold_prims; follow_run; reflexivity.
Qed.

(** X3. The permission prompt, [getToken] and the store write happen in
    that order and at most once per run: no token is asked for before the
    prompt, and nothing is written before a token was asked for. *)
Theorem external_calls_in_order (env : Env) (w : World) :
  calls_in_order Started (events (PageScript.registerPush env w)) = true ∧
  calls_in_order Started (events (LoaderScript.registerPush env w)) = true.
Proof.
  destruct w as [[st tp b] subs ap], env.
  split; unfold_scripts; unfold_prims; follow_run; reflexivity.
Qed.

(** X4. The script that initialises the SDK inside [registerPush] calls
    [initializeApp] once in every run that finds [window.firebase], and not
    at all otherwise; [registerPush] of the other script never calls it. *)
Theorem initializeApp_calls (env : Env) (w : World) :
  count_calls is_initializeApp (events (PageScript.registerPush env w)) =
    (if firebase_loaded env then 1 else 0)%nat ∧
  count_calls is_initializeApp (events (LoaderScript.registerPush env w)) = 0%nat.
Proof.
  destruct w as [[st tp b] subs ap], env.
  split; unfold_scripts; unfold_prims; follow_run; reflexivity.
Qed.

(** X5. Whenever [getToken] is called it gets the VAPID key of the script
    and the worker registration obtained earlier in the same run: the one
    [navigator.serviceWorker.ready] resolved to in one script, the one
    [register("./app.js")] resolved to in the other. *)
Theorem getToken_arguments (env : Env) (w : World) :
  Forall (token_request_with (sw_ready env)) (events (PageScript.registerPush env w)) ∧
  Forall (token_request_with (sw_register env "./app.js"))
         (events (LoaderScript.registerPush env w)).
Proof.
  destruct w as [[st tp b] subs ap], env.
  split; unfold_scripts; unfold_prims; follow_run; check_calls.
Qed.

(** X6. Whatever a run writes into the preview element is the preview of
    the non-empty token [getToken] resolved to in that run; in particular
    the placeholder "-" of [setTokenPreview] is never written by a run. *)
Theorem preview_shows_obtained_token (env : Env) (w : World) :
  Forall (preview_of_token env) (events (PageScript.registerPush env w)) ∧
  Forall (preview_of_token env) (events (LoaderScript.registerPush env w)).
Proof.
  destruct w as [[st tp b] subs ap], env.
  split; unfold_scripts; unfold_prims; follow_run; check_calls.
Qed.

(** ** What a run leaves alone *)

Lemma elements_of_setStatus d msg ok : keeps (elements_of d) (setStatus msg ok).
Proof.
  intros [[st tp b] subs ap] Hw. unfold elements_of, same_elements in *.
  unfold_prims. cbn in *. destruct st; cbn; [|done].
  destruct Hw as (Hs & Hp & Hb). repeat split; try done; try apply Hp.
  intros _. apply Hs. by eexists.
Qed.

Lemma elements_of_write_preview d text : keeps (elements_of d) (write_preview text).
Proof.
  intros [[st tp b] subs ap] Hw. unfold elements_of, same_elements in *.
  unfold_prims. cbn in *. destruct tp; cbn; [|done].
  destruct Hw as (Hs & Hp & Hb). repeat split; try done; try apply Hs.
  intros _. apply Hp. by eexists.
Qed.

Lemma elements_of_initializeApp d env : keeps (elements_of d) (initializeApp env).
Proof.
  intros [pg subs ap] Hw. unfold_prims. cbn. by destruct ap, (initialize_again env).
Qed.

Lemma elements_of_store_set_merge d env key data :
  keeps (elements_of d) (store_set_merge env key data).
Proof. intros [pg subs ap] Hw. unfold_prims. cbn. by destruct (store_set env). Qed.

#[export] Hint Resolve elements_of_setStatus elements_of_write_preview
  elements_of_initializeApp elements_of_store_set_merge : run.

(** X7. A run neither adds nor removes any of the three elements and leaves
    the click listeners of the button as they were: it only changes the
    text and colour of the elements that exist. *)
Theorem run_keeps_elements (env : Env) (w : World) :
  same_elements (page w) (page (world (PageScript.registerPush env w))) ∧
  same_elements (page w) (page (world (LoaderScript.registerPush env w))).
Proof.
  assert (H0 : elements_of (page w) w) by done.
  split.
  - revert H0. generalize (page w) as d. intros d. revert w.
    apply (keeps_try_catch (elements_of d)).
    + unfold PageScript.body, PageScript.setTokenPreview. cbv zeta.
      by_steps @keeps_bind.
    + intros e. unfold catch_handler. by_steps @keeps_bind.
  - revert H0. generalize (page w) as d. intros d. revert w.
    apply (keeps_try_catch (elements_of d)).
    + unfold LoaderScript.body, LoaderScript.registerServiceWorker. cbv zeta.
      by_steps @keeps_bind.
    + intros e. unfold catch_handler. by_steps @keeps_bind.
Qed.

(** X8. A run changes the remote collection in one way only: either the
    collection is as it was and no write resolved, or the permission was
    granted, [getToken] gave a non-empty token, the write was accepted, and
    the collection is the old one with the record of that token merged in
    under the token as key. *)
Theorem store_effect_of_run (env : Env) (w : World) :
  ∀ r, r = PageScript.registerPush env w ∨ r = LoaderScript.registerPush env w →
  (existsb is_persisted (events r) = false ∧ subscribers (world r) = subscribers w) ∨
  (existsb is_persisted (events r) = true ∧
   ∃ t, permission env = Fulfilled Granted ∧ get_token env = Fulfilled (Some t) ∧
        t ≠ EmptyString ∧ store_set env = None ∧
        subscribers (world r) = persist env t (subscribers w)).
Proof.
  destruct w as [[st tp b] subs ap], env.
  intros r [-> | ->]; unfold_scripts; unfold_prims; unfold persist;
    follow_run; first [by left | right; split; [done|]; by eexists].
Qed.

Lemma store_effect_of_run_witness :
  subscribers (world (LoaderScript.registerPush (with_store_error store_down env_ok)
                                                (fresh_world page_full))) = ∅.
Proof.
  destruct (store_effect_of_run (with_store_error store_down env_ok) (fresh_world page_full)
              _ (or_intror eq_refl)) as [[_ H] | [H _]].
  - exact H.
  - vm_compute in H. discriminate H.
Defined.

(** ** Successful registration *)

(** X9. In the script that initialises the SDK inside [registerPush]: when
    the SDK is present and not yet initialised, its services load, and the
    worker, the prompt, [getToken] and the store all answer well, the run
    merges the record of the token into the collection, ends by setting the
    success message, shows it in green, shows the preview of the token, and
    leaves the default app created. *)
Theorem page_script_registers (env : Env) (w : World) (t : string) :
  firebase_loaded env = true → apps w = false →
  messaging env = None → firestore env = None →
  all_succeed (sw_ready env) env t →
  let r := PageScript.registerPush env w in
  subscribers (world r) = persist env t (subscribers w) ∧
  last (events r) =
    Some (CallSetStatus "등록 완료 ✅ 이제 푸시를 받을 수 있습니다!" true) ∧
  (has_status w →
   status (page (world r)) =
     Some (status_shown "등록 완료 ✅ 이제 푸시를 받을 수 있습니다!" true)) ∧
  (is_Some (tokenPreview (page w)) →
   tokenPreview (page (world r)) = Some (preview_text t)) ∧
  apps (world r) = true.
Proof.
  destruct w as [[st tp b] subs ap], env. unfold all_succeed. cbn.
  intros -> -> -> -> (-> & [reg ->] & -> & -> & Hne & ->).
  destruct t as [|c t]; [done|].
  unfold_scripts; unfold_prims; unfold persist, has_status. follow_run;
    repeat split; try done; by intros [? ?].
Qed.

Lemma page_script_registers_witness :
  subscribers (world (PageScript.registerPush env_ok (fresh_world page_full))) =
    persist env_ok sample_token ∅ ∧
  tokenPreview (page (world (PageScript.registerPush env_ok (fresh_world page_full)))) =
    Some (preview_text sample_token).
Proof.
  destruct (page_script_registers env_ok (fresh_world page_full) sample_token)
    as (H1 & _ & _ & H4 & _); try reflexivity.
  - repeat split; try reflexivity; [by eexists | discriminate].
  - split; [exact H1|]. apply H4. by eexists.
Defined.

(** X10. In the script that initialises the SDK when it is loaded: when
    service workers are supported and [register], the prompt, [getToken]
    and the store all answer well, the run merges the record of the token
    into the collection, sets the success message and shows it in green,
    and shows the preview of the token. *)
Theorem loader_script_registers (env : Env) (w : World) (t : string) :
  all_succeed (sw_register env "./app.js") env t →
  let r := LoaderScript.registerPush env w in
  outcome r = Normal tt ∧
  subscribers (world r) = persist env t (subscribers w) ∧
  existsb is_success (events r) = true ∧
  (has_status w →
   status (page (world r)) =
     Some (status_shown "등록 완료 ✅ 이제 푸시를 받을 수 있습니다!" true)) ∧
  (is_Some (tokenPreview (page w)) →
   tokenPreview (page (world r)) = Some (preview_text t)).
Proof.
  destruct w as [[st tp b] subs ap], env. unfold all_succeed. cbn.
  intros (-> & [reg Hreg] & -> & -> & Hne & ->).
  destruct t as [|c t]; [done|].
  unfold_scripts; unfold_prims; unfold persist, has_status. cbn. rewrite Hreg.
  follow_run; repeat split; try done; by intros [? ?].
Qed.

Lemma loader_script_registers_witness :
  subscribers (world (LoaderScript.registerPush env_ok (fresh_world page_bare))) =
    persist env_ok sample_token ∅.
Proof.
  apply (loader_script_registers env_ok (fresh_world page_bare) sample_token).
  repeat split; try reflexivity; [by eexists | discriminate].
Defined.

(** X11. [registerPush] of the script that initialises the SDK when it is
    loaded is idempotent on retry: run again on the page and the store the
    first run left, with the browser and the SDK answering as before, it
    makes the same calls, ends the same way and leaves page, store and app
    registry exactly as the first run left them. *)
Theorem loader_retry_is_idempotent (env : Env) (w : World) :
  LoaderScript.registerPush env (world (LoaderScript.registerPush env w)) =
  LoaderScript.registerPush env w.
Proof.
  destruct w as [[st tp b] subs ap], env.
  unfold_scripts; unfold_prims.
  follow_run; rewrite ?set_merge_idem; reflexivity.
Qed.

(** ** Loading the scripts and clicking the button *)

(** X12. When the top level of the script that initialises the SDK at load
    throws (the SDK is missing, or one of its services fails to load), the
    script stops before the [DOMContentLoaded] listener is installed: the
    page is untouched, no status is ever set, and a click on the button
    runs nothing.  A missing SDK is one such case. *)
Theorem loader_load_failure (env : Env) (w : World) (e : Error) :
  outcome (LoaderScript.load env w) = Throw e →
  let w' := world (LoaderScript.load env w) in
  page w' = page w ∧
  (btn (page w) = Some [] →
   ∀ env', click LoaderScript.registerPush env' w' = mkRes (Normal tt) w' []).
Proof.
  destruct w as [[st tp b] subs ap], env.
  unfold_scripts; unfold_prims. follow_run; intros H; try done;
    (split; [done|]); cbn; by intros ->.
Qed.

Lemma loader_load_failure_witness :
  outcome (LoaderScript.load env_no_sdk (fresh_world page_full)) =
    Throw (mkError "firebase is not defined") ∧
  click LoaderScript.registerPush env_ok
        (world (LoaderScript.load env_no_sdk (fresh_world page_full))) =
    mkRes (Normal tt) (world (LoaderScript.load env_no_sdk (fresh_world page_full))) [].
Proof.
  split; [reflexivity|].
  apply (loader_load_failure env_no_sdk (fresh_world page_full)
           (mkError "firebase is not defined")); reflexivity.
Defined.

Lemma add_listener_first : add_listener ClickRegisterPush [] = [ClickRegisterPush].
Proof. reflexivity. Qed.

(** X13. Once a script has loaded without an exception on a page whose
    button has no listener yet, a click on the button runs [registerPush]
    of that script, and nothing else.  The script that initialises the SDK
    inside [registerPush] always loads without an exception and makes no
    SDK call while loading. *)
Theorem click_runs_registerPush (env env' : Env) (w : World) :
  btn (page w) = Some [] →
  (outcome (PageScript.load env w) = Normal tt ∧
   events (PageScript.load env w) = [] ∧
   click PageScript.registerPush env' (world (PageScript.load env w)) =
     PageScript.registerPush env' (world (PageScript.load env w))) ∧
  (outcome (LoaderScript.load env w) = Normal tt →
   click LoaderScript.registerPush env' (world (LoaderScript.load env w)) =
     LoaderScript.registerPush env' (world (LoaderScript.load env w))).
Proof.
  destruct w as [[st tp b] subs ap]. cbn. intros ->. split.
  - unfold PageScript.load, click. unfold_prims. cbn.
    rewrite add_listener_first. cbn.
    by destruct (PageScript.registerPush env' _).
  - destruct env. unfold LoaderScript.load, click. unfold_prims.
    follow_run; intros H; try done; rewrite add_listener_first; cbn;
      by destruct (LoaderScript.registerPush env' _).
Qed.

Lemma click_runs_registerPush_witness :
  btn (page (fresh_world page_full)) = Some [] ∧
  existsb is_persisted
    (events (click LoaderScript.registerPush env_ok
               (world (LoaderScript.load env_ok (fresh_world page_full))))) = true.
Proof.
  split; [reflexivity|].
  destruct (click_runs_registerPush env_ok env_ok (fresh_world page_full) eq_refl)
    as [_ H].
  rewrite H; reflexivity.
Defined.

(** X14. Without service worker support a run stops before anything leaves
    the page script: no worker is awaited or registered, no permission is
    asked, no token requested, nothing written.  It ends on the failure
    status naming the missing support (in the script that initialises the
    SDK first, provided that initialisation went through). *)
Theorem no_worker_support_stops (env : Env) (w : World) :
  sw_supported env = false →
  (existsb leaves_page (events (PageScript.registerPush env w)) = false ∧
   subscribers (world (PageScript.registerPush env w)) = subscribers w ∧
   (firebase_loaded env = true → apps w = false →
    messaging env = None → firestore env = None →
    last (events (PageScript.registerPush env w)) =
      Some (CallSetStatus ("오류: " +:+ "ServiceWorker not supported") false))) ∧
  (existsb leaves_page (events (LoaderScript.registerPush env w)) = false ∧
   subscribers (world (LoaderScript.registerPush env w)) = subscribers w ∧
   last (events (LoaderScript.registerPush env w)) =
     Some (CallSetStatus ("오류: " +:+ "Service Worker not supported") false)).
Proof.
  destruct w as [[st tp b] subs ap], env. cbn. intros ->.
  split; unfold_scripts; unfold_prims; follow_run; repeat split; done.
Qed.

Lemma no_worker_support_stops_witness :
  let env := mkEnv true None None None false (Fulfilled sw_reg) (λ _, Fulfilled sw_reg)
                   (Fulfilled Granted) (Fulfilled (Some sample_token)) None
                   "Mozilla/5.0" "2024-01-01T00:00:00.000Z" in
  sw_supported env = false ∧
  last (events (PageScript.registerPush env (fresh_world page_full))) =
    Some (CallSetStatus ("오류: " +:+ "ServiceWorker not supported") false).
Proof.
  intros env. split; [reflexivity|].
  destruct (no_worker_support_stops env (fresh_world page_full) eq_refl)
    as [(_ & _ & H) _].
  apply H; reflexivity.
Defined.

(** X15. [registerPush] of the script that initialises the SDK when it is
    loaded does not read the application registry and does not change it:
    whether the default app exists makes no difference to what a run calls,
    returns, shows or stores. *)
Theorem loader_registerPush_independent_of_apps (env : Env) (d : Dom)
    (subs : gmap string (gmap string string)) (a1 a2 : bool) :
  let r1 := LoaderScript.registerPush env (mkWorld d subs a1) in
  let r2 := LoaderScript.registerPush env (mkWorld d subs a2) in
  outcome r1 = outcome r2 ∧ events r1 = events r2 ∧
  page (world r1) = page (world r2) ∧
  subscribers (world r1) = subscribers (world r2) ∧
  apps (world r1) = a1 ∧ apps (world r2) = a2.
Proof.
  destruct d as [st tp b], env.
  unfold_scripts; unfold_prims. follow_run; done.
Qed.

(** ** The record in the store *)

(** X16. After the write the collection holds, under the token, a document
    whose [token], [ua] and [createdAt] fields are the token, the user
    agent and the time of this write, whatever the document held before;
    a token that was not in the collection adds exactly one document, a
    token that was adds none. *)
Theorem persist_read_back (env : Env) (token : string)
    (coll : gmap string (gmap string string)) :
  (∃ doc, persist env token coll !! token = Some doc ∧
          doc !! "token" = Some token ∧
          doc !! "ua" = Some (userAgent env) ∧
          doc !! "createdAt" = Some (now env)) ∧
  size (persist env token coll) =
    match coll !! token with Some _ => size coll | None => S (size coll) end.
Proof.
  unfold persist, Firestore.set_merge. split.
  - eexists. split; [apply lookup_insert_eq|].
    rewrite !lookup_union, !subscriber_record_lookup.
    repeat split; repeat case_decide; try done; by destruct (_ !! _).
  - rewrite map_size_insert. by destruct (coll !! token).
Qed.

(** X17. Writes for two different tokens do not interfere: in either order
    they leave the same collection, and each leaves the document of the
    other token as the other write made it. *)
Theorem persist_commutes (env1 env2 : Env) (t1 t2 : string)
    (coll : gmap string (gmap string string)) :
  t1 ≠ t2 →
  persist env1 t1 (persist env2 t2 coll) = persist env2 t2 (persist env1 t1 coll) ∧
  persist env1 t1 (persist env2 t2 coll) !! t2 = persist env2 t2 coll !! t2.
Proof.
  intros Hne. unfold persist, Firestore.set_merge. split.
  - rewrite !lookup_insert_ne by done. by apply insert_insert_ne.
  - by rewrite lookup_insert_ne.
Qed.

Lemma persist_commutes_witness :
  persist env_ok "tokenA" (persist env_ok "tokenB" ∅) =
  persist env_ok "tokenB" (persist env_ok "tokenA" ∅).
Proof. apply (persist_commutes env_ok env_ok "tokenA" "tokenB" ∅). discriminate. Defined.

(** ** How much of the token the preview shows *)

Lemma length_string_of_list (l : list Ascii.ascii) :
  String.length (String.string_of_list_ascii l) = length l.
Proof. induction l; cbn; congruence. Qed.

Lemma length_append (s1 s2 : string) :
  String.length (s1 +:+ s2) = (String.length s1 + String.length s2)%nat.
Proof.
  induction s1 as [|c s1 IH]; [reflexivity|].
  change (S (String.length (s1 +:+ s2)) = S (String.length s1 + String.length s2)).
  by rewrite IH.
Qed.

Lemma preview_text_parts (t : string) :
  preview_text t = Js.first_chars 12 t +:+ "..." +:+ Js.last_chars 8 t.
Proof.
  unfold preview_text.
  change (Js.slice t 0 (Some 12)) with (Js.slice t 0 (Some (Z.of_nat 12))).
  change (Js.slice t (-8) None) with (Js.slice t (- Z.of_nat 8) None).
  by rewrite slice_first, slice_last by lia.
Qed.

(** X18. The preview shows at most 12 leading and 8 trailing characters of
    the token around three dots: its length is min(12, n) + 3 + min(8, n)
    for a token of n characters, never more than 23. *)
Theorem preview_length (t : string) :
  String.length (preview_text t) =
    (Nat.min 12 (String.length t) + 3 + Nat.min 8 (String.length t))%nat ∧
  (String.length (preview_text t) ≤ 23)%nat.
Proof.
  assert (H : String.length (preview_text t) =
              (Nat.min 12 (String.length t) + 3 + Nat.min 8 (String.length t))%nat).
  { rewrite preview_text_parts, !length_append.
    unfold Js.first_chars, Js.last_chars.
    rewrite !length_string_of_list, length_take, length_drop, !length_list_ascii.
    cbn [String.length]. lia. }
  split; [exact H | lia].
Qed.

(** X19. A short token is not elided.  With at most 12 characters the
    preview begins with the whole token, and with at most 8 characters it
    is the whole token, three dots, and the whole token again.  A token of
    more than 20 characters has characters the preview leaves out, and only
    such a token has: with at most 20 characters the leading and the
    trailing slice together are at least as long as the token, and every
    position of the token lies in one of them. *)
Theorem preview_of_short_token (t : string) :
  ((String.length t ≤ 12)%nat → Js.slice t 0 (Some 12) = t) ∧
  ((String.length t ≤ 8)%nat → preview_text t = t +:+ "..." +:+ t) ∧
  ((20 < String.length t)%nat →
   (String.length (Js.slice t 0 (Some 12%Z)) + String.length (Js.slice t (-8)%Z None)
    < String.length t)%nat) ∧
  ((String.length t ≤ 20)%nat →
   (String.length t ≤
    String.length (Js.slice t 0 (Some 12%Z)) + String.length (Js.slice t (-8)%Z None))%nat ∧
   ∀ i, (i < String.length t)%nat →
        (i < String.length (Js.slice t 0 (Some 12%Z)))%nat ∨
        (String.length t - String.length (Js.slice t (-8)%Z None) ≤ i)%nat).
Proof.
  assert (Hlen : String.length (Js.slice t 0 (Some 12%Z)) = Nat.min 12 (String.length t) ∧
                 String.length (Js.slice t (-8)%Z None) = Nat.min 8 (String.length t)).
  { change (Js.slice t 0 (Some 12)) with (Js.slice t 0 (Some (Z.of_nat 12))).
    change (Js.slice t (-8) None) with (Js.slice t (- Z.of_nat 8) None).
    rewrite slice_first, slice_last by lia.
    unfold Js.first_chars, Js.last_chars.
    rewrite !length_string_of_list, length_take, length_drop, !length_list_ascii.
    lia. }
  destruct Hlen as [Hl1 Hl2].
  assert (Hfirst : ∀ n, (String.length t ≤ n)%nat → Js.first_chars n t = t).
  { intros n Hn. unfold Js.first_chars.
    rewrite take_ge by (rewrite length_list_ascii; lia).
    apply String.string_of_list_ascii_of_string. }
  assert (Hlast : ∀ n, (String.length t ≤ n)%nat → Js.last_chars n t = t).
  { intros n Hn. unfold Js.last_chars. rewrite length_list_ascii.
    replace (String.length t - n)%nat with 0%nat by lia.
    rewrite drop_0. apply String.string_of_list_ascii_of_string. }
  split; [|split; [|split]].
  - intros Hn. change (Some 12) with (Some (Z.of_nat 12)).
    rewrite slice_first. by apply Hfirst.
  - intros Hn. rewrite preview_text_parts, Hfirst, Hlast by lia. done.
  - intros Hn. rewrite Hl1, Hl2. lia.
  - intros Hn. rewrite Hl1, Hl2. split; [lia|]. intros i Hi. lia.
Qed.

Lemma preview_of_short_token_witness :
  (String.length "abc" ≤ 8)%nat ∧ preview_text "abc" = "abc...abc".
Proof.
  split; [cbn; lia|].
  destruct (preview_of_short_token "abc") as (_ & H & _ & _).
  rewrite H; [reflexivity | cbn; lia].
Defined.

(** * Further properties of the service worker *)

(** X20. The worker is a stateless proxy.  Handling any sequence of events,
    it sends to the network exactly the intercepted requests, in order and
    once each, answers each with what the network gave for it, and the
    install and activate events cause no network request and no answer. *)
Theorem worker_proxies_in_order {Request Response : Type}
    (network : Request → Settled Response) (evs : list (SW.SwEvent Request)) :
  SW.network_requests Request Response (dispatch_all network evs) = intercepted evs ∧
  responses_of (dispatch_all network evs) = map network (intercepted evs).
Proof.
  unfold dispatch_all, intercepted.
  induction evs as [|ev evs [IH1 IH2]]; [done|].
  destruct ev; cbn; rewrite ?IH1, ?IH2; done.
Qed.

(** * Further guards of the page scripts *)

(** X21. [getToken] is requested only in runs in which the permission
    prompt resolved to "granted", and the store write only in runs in which
    [getToken] resolved to a non-empty token: a rejected prompt, a rejected
    or empty token never lets the run go on to the next request. *)
Theorem requests_are_guarded (env : Env) (w : World) :
  ∀ r, r = PageScript.registerPush env w ∨ r = LoaderScript.registerPush env w →
  (existsb is_get_token (events r) = true → permission env = Fulfilled Granted) ∧
  (existsb is_store_set (events r) = true →
   ∃ t, get_token env = Fulfilled (Some t) ∧ t ≠ EmptyString).
Proof.
  destruct w as [[st tp b] subs ap], env.
  intros r [-> | ->]; unfold_scripts; unfold_prims;
    follow_run; (split; intros H; [done | try done; by eexists]).
Qed.

Lemma requests_are_guarded_witness :
  permission env_ok = Fulfilled Granted ∧
  ∃ t, get_token env_ok = Fulfilled (Some t) ∧ t ≠ EmptyString.
Proof.
  destruct (requests_are_guarded env_ok (fresh_world page_full) _ (or_introl eq_refl))
    as [H1 H2].
  split; [apply H1 | apply H2]; reflexivity.
Defined.

(** X22. When [window.firebase] is missing, the script that looks for it
    stops at once: it calls nothing of the SDK or the browser, leaves the
    store alone, and ends on the failure status saying the SDK is not
    loaded. *)
Theorem missing_sdk_stops (env : Env) (w : World) :
  firebase_loaded env = false →
  let r := PageScript.registerPush env w in
  events r = [CallSetStatus "초기화 중..." true;
              ConsoleError (mkError "firebase SDK not loaded");
              CallSetStatus ("오류: " +:+ "firebase SDK not loaded") false] ∧
  subscribers (world r) = subscribers w ∧ apps (world r) = apps w.
Proof.
  destruct w as [[st tp b] subs ap], env. cbn. intros ->.
  unfold_scripts; unfold_prims. follow_run; done.
Qed.

Lemma missing_sdk_stops_witness :
  firebase_loaded env_no_sdk = false ∧
  apps (world (PageScript.registerPush env_no_sdk (fresh_world page_full))) = false.
Proof.
  split; [reflexivity|].
  apply (missing_sdk_stops env_no_sdk (fresh_world page_full)). reflexivity.
Defined.
